(** * http-status: the record constructor and the catalogue of constants

    A shallow embedding of [src/http-status.ts].  The TypeScript module
    declares one object type ([HTTPStatus]), one generic arrow function
    ([NewHTTPStatus]) that builds an object literal with the two properties
    [status] and [statusText], and sixty-three exported constants, each the
    result of one call of that function on two literals.

    Objects are modelled as JavaScript has them: an ordered list of own
    properties, each with its key, its value and its attribute flags.  The
    [readonly] modifiers of the declared types live in a separate, static
    layer, since they exist for the type checker only. *)

From Stdlib Require Import ZArith Ascii String List Bool Lia.
Import ListNotations.

Local Open Scope string_scope.

(** ** Objects *)

Module JS.

(** The two kinds of value the module stores in a property.  [Code] and
    [Text] are the carriers of numbers and strings; the constructor is
    generic in both, the catalogue uses integer and string literals. *)
Inductive value (Code Text : Type) : Type :=
| VNum (n : Code)
| VStr (s : Text).
Arguments VNum {Code Text} n.
Arguments VStr {Code Text} s.

(** An own data property with its attributes. *)
Record property (Code Text : Type) : Type := Property {
  key : string;
  val : value Code Text;
  writable : bool;
  enumerable : bool;
  configurable : bool
}.
Arguments Property {Code Text} key val writable enumerable configurable.
Arguments key {Code Text} p.
Arguments val {Code Text} p.
Arguments writable {Code Text} p.
Arguments enumerable {Code Text} p.
Arguments configurable {Code Text} p.

(** An object is the list of its own properties, in creation order. *)
Definition object (Code Text : Type) : Type := list (property Code Text).

Section Operations.
Context {Code Text : Type}.

(** A property as an object literal [{ k: v }] creates it: writable,
    enumerable and configurable. *)
Definition data_property (k : string) (v : value Code Text) : property Code Text :=
  Property k v true true true.

(** [o.k] restricted to own properties; [None] stands for [undefined]. *)
Fixpoint get (o : object Code Text) (k : string) : option (value Code Text) :=
  match o with
  | [] => None
  | p :: rest => if String.eqb (key p) k then Some (val p) else get rest k
  end.

(** [Object.getOwnPropertyNames(o)]. *)
Definition own_keys (o : object Code Text) : list string := map key o.

(** The run-time assignment [o.k = v] on an ordinary, extensible object:
    a writable own property takes the new value, a non-writable one keeps
    the old one, a missing one is created. *)
Fixpoint put (o : object Code Text) (k : string) (v : value Code Text)
  : object Code Text :=
  match o with
  | [] => [data_property k v]
  | p :: rest =>
      if String.eqb (key p) k
      then (if writable p
            then Property (key p) v (writable p) (enumerable p) (configurable p)
            else p) :: rest
      else p :: put rest k v
  end.

(** [CreateDataProperty]: what an object literal and a spread do for each
    property they write.  An existing property keeps its place and is
    replaced by a fresh data property; a new one goes to the end. *)
Fixpoint define (o : object Code Text) (k : string) (v : value Code Text)
  : object Code Text :=
  match o with
  | [] => [data_property k v]
  | p :: rest =>
      if String.eqb (key p) k
      then data_property k v :: rest
      else p :: define rest k v
  end.

(** [{ ...target, ...src }]: every own enumerable property of [src] is
    defined on the target, in order. *)
Definition spread (target src : object Code Text) : object Code Text :=
  fold_left
    (fun t p => if enumerable p then define t (key p) (val p) else t)
    src target.

End Operations.

End JS.

Import JS.

(** ** The record constructor *)

(** [const NewHTTPStatus = <Code extends number, Text extends string>(
       status: Code, statusText: Text) => ({ status, statusText })]. *)
Definition NewHTTPStatus {Code Text : Type} (status : Code) (statusText : Text)
  : object Code Text :=
  define (define [] "status" (VNum status)) "statusText" (VStr statusText).

(** Reading the two fields back, [o.status] as a number and [o.statusText]
    as a string. *)
Definition status {Code Text : Type} (o : object Code Text) : option Code :=
  match get o "status" with
  | Some (VNum n) => Some n
  | _ => None
  end.

Definition statusText {Code Text : Type} (o : object Code Text) : option Text :=
  match get o "statusText" with
  | Some (VStr s) => Some s
  | _ => None
  end.

(** ** The static layer: object types and the assignment check *)

Module TS.

Inductive ts_type : Type := TNumber | TString.

(** A member of an object type: [readonly name: type]. *)
Record member : Type := Member {
  member_name : string;
  member_readonly : bool;
  member_type : ts_type
}.

Definition object_type : Type := list member.

Definition has_type (v : value Z string) (t : ts_type) : bool :=
  match v, t with
  | VNum _, TNumber => true
  | VStr _, TString => true
  | _, _ => false
  end.

Fixpoint lookup_member (ty : object_type) (k : string) : option member :=
  match ty with
  | [] => None
  | m :: rest =>
      if String.eqb (member_name m) k then Some m else lookup_member rest k
  end.

(** [o] has every member of [ty], with a value of the member's type. *)
Definition conforms (o : object Z string) (ty : object_type) : bool :=
  forallb
    (fun m =>
       match get o (member_name m) with
       | Some v => has_type v (member_type m)
       | None => false
       end)
    ty.

(** The compiler's diagnostics for a property assignment. *)
Inductive diagnostic : Type :=
| TS2304   (* cannot find name *)
| TS2322   (* type is not assignable *)
| TS2339   (* property does not exist on type *)
| TS2540.  (* cannot assign: read-only property *)

Inductive checked (A : Type) : Type :=
| Compiles (a : A)
| Rejected (d : diagnostic).
Arguments Compiles {A} a.
Arguments Rejected {A} d.

(** The statement [o.k = v] for [o] of static type [ty]: the checker first,
    and the run-time assignment only when the statement compiles. *)
Definition assign (ty : object_type) (o : object Z string) (k : string)
  (v : value Z string) : checked (object Z string) :=
  match lookup_member ty k with
  | None => Rejected TS2339
  | Some m =>
      if member_readonly m then Rejected TS2540
      else if has_type v (member_type m) then Compiles (put o k v)
      else Rejected TS2322
  end.

End TS.

Import TS.

(** [export type HTTPStatus = { readonly status: number;
                                readonly statusText: string }]. *)
Definition HTTPStatus : object_type :=
  [ Member "status" true TNumber; Member "statusText" true TString ].

(** The declared return type of [NewHTTPStatus],
    [{ readonly status: Code; readonly statusText: Text }], with the literal
    types [Code] and [Text] taken at their bounds [number] and [string]. *)
Definition NewHTTPStatus_result : object_type :=
  [ Member "status" true TNumber; Member "statusText" true TString ].

(** ** The catalogue *)

Local Open Scope Z_scope.

Definition CONTINUE := NewHTTPStatus 100 "Continue".
Definition SWITCHING_PROTOCOLS := NewHTTPStatus 101 "Switching Protocols".
Definition PROCESSING := NewHTTPStatus 102 "Processing".
Definition EARLY_HINTS := NewHTTPStatus 103 "Early Hints".
Definition OK := NewHTTPStatus 200 "OK".
Definition CREATED := NewHTTPStatus 201 "Created".
Definition ACCEPTED := NewHTTPStatus 202 "Accepted".
Definition NON_AUTHORITATIVE_INFORMATION := NewHTTPStatus 203 "Non-Authoritative Information".
Definition NO_CONTENT := NewHTTPStatus 204 "No Content".
Definition RESET_CONTENT := NewHTTPStatus 205 "Reset Content".
Definition PARTIAL_CONTENT := NewHTTPStatus 206 "Partial Content".
Definition MULTI_STATUS := NewHTTPStatus 207 "Multi-Status".
Definition ALREADY_REPORTED := NewHTTPStatus 208 "Already Reported".
Definition IM_USED := NewHTTPStatus 226 "IM Used".
Definition MULTIPLE_CHOICES := NewHTTPStatus 300 "Multiple Choices".
Definition MOVED_PERMANENTLY := NewHTTPStatus 301 "Moved Permanently".
Definition FOUND := NewHTTPStatus 302 "Found".
Definition SEE_OTHER := NewHTTPStatus 303 "See Other".
Definition NOT_MODIFIED := NewHTTPStatus 304 "Not Modified".
Definition USE_PROXY := NewHTTPStatus 305 "Use Proxy".
Definition UNUSED := NewHTTPStatus 306 "Unused".
Definition TEMPORARY_REDIRECT := NewHTTPStatus 307 "Temporary Redirect".
Definition PERMANENT_REDIRECT := NewHTTPStatus 308 "Permanent Redirect".
Definition BAD_REQUEST := NewHTTPStatus 400 "Bad Request".
Definition UNAUTHORIZED := NewHTTPStatus 401 "Unauthorized".
Definition PAYMENT_REQUIRED := NewHTTPStatus 402 "Payment Required".
Definition FORBIDDEN := NewHTTPStatus 403 "Forbidden".
Definition NOT_FOUND := NewHTTPStatus 404 "Not Found".
Definition METHOD_NOT_ALLOWED := NewHTTPStatus 405 "Method Not Allowed".
Definition NOT_ACCEPTABLE := NewHTTPStatus 406 "Not Acceptable".
Definition PROXY_AUTHENTICATION_REQUIRED := NewHTTPStatus 407 "Proxy Authentication Required".
Definition REQUEST_TIMEOUT := NewHTTPStatus 408 "Request Timeout".
Definition CONFLICT := NewHTTPStatus 409 "Conflict".
Definition GONE := NewHTTPStatus 410 "Gone".
Definition LENGTH_REQUIRED := NewHTTPStatus 411 "Length Required".
Definition PRECONDITION_FAILED := NewHTTPStatus 412 "Precondition Failed".
Definition CONTENT_TOO_LARGE := NewHTTPStatus 413 "Content Too Large".
Definition URI_TOO_LONG := NewHTTPStatus 414 "URI Too Long".
Definition UNSUPPORTED_MEDIA_TYPE := NewHTTPStatus 415 "Unsupported Media Type".
Definition RANGE_NOT_SATISFIABLE := NewHTTPStatus 416 "Range Not Satisfiable".
Definition EXPECTATION_FAILED := NewHTTPStatus 417 "Expectation Failed".
Definition IM_A_TEAPOT := NewHTTPStatus 418 "I'm a teapot".
Definition MISDIRECTED_REQUEST := NewHTTPStatus 421 "Misdirected Request".
Definition UNPROCESSABLE_CONTENT := NewHTTPStatus 422 "Unprocessable Content".
Definition LOCKED := NewHTTPStatus 423 "Locked".
Definition FAILED_DEPENDENCY := NewHTTPStatus 424 "Failed Dependency".
Definition TOO_EARLY := NewHTTPStatus 425 "Too Early".
Definition UPGRADE_REQUIRED := NewHTTPStatus 426 "Upgrade Required".
Definition PRECONDITION_REQUIRED := NewHTTPStatus 428 "Precondition Required".
Definition TOO_MANY_REQUESTS := NewHTTPStatus 429 "Too Many Requests".
Definition REQUEST_HEADER_FIELDS_TOO_LARGE := NewHTTPStatus 431 "Request Header Fields Too Large".
Definition UNAVAILABLE_FOR_LEGAL_REASONS := NewHTTPStatus 451 "Unavailable For Legal Reasons".
Definition INTERNAL_SERVER_ERROR := NewHTTPStatus 500 "Internal Server Error".
Definition NOT_IMPLEMENTED := NewHTTPStatus 501 "Not Implemented".
Definition BAD_GATEWAY := NewHTTPStatus 502 "Bad Gateway".
Definition SERVICE_UNAVAILABLE := NewHTTPStatus 503 "Service Unavailable".
Definition GATEWAY_TIMEOUT := NewHTTPStatus 504 "Gateway Timeout".
Definition HTTP_VERSION_NOT_SUPPORTED := NewHTTPStatus 505 "HTTP Version Not Supported".
Definition VARIANT_ALSO_NEGOTIATES := NewHTTPStatus 506 "Variant Also Negotiates".
Definition INSUFFICIENT_STORAGE := NewHTTPStatus 507 "Insufficient Storage".
Definition LOOP_DETECTED := NewHTTPStatus 508 "Loop Detected".
Definition NOT_EXTENDED := NewHTTPStatus 510 "Not Extended".
Definition NETWORK_AUTHENTICATION_REQUIRED := NewHTTPStatus 511 "Network Authentication Required".

(** ** The module and its export surface *)

(** What a top-level [const] of the module is bound to. *)
Inductive binding : Type :=
| Function_ (f : Z -> string -> object Z string)
| Constant (o : object Z string).

(** A top-level declaration: [export const name = ...] or [const name = ...]. *)
Record declaration : Type := Declaration {
  exported : bool;
  name : string;
  bound : binding
}.

Definition export_const (n : string) (o : object Z string) : declaration :=
  Declaration true n (Constant o).

(** The [const] declarations of [http-status.ts], in source order; its one
    type declaration is [type_exports] below. *)
Definition http_status_ts : list declaration :=
  [ Declaration false "NewHTTPStatus" (Function_ NewHTTPStatus);
    export_const "CONTINUE" CONTINUE;
    export_const "SWITCHING_PROTOCOLS" SWITCHING_PROTOCOLS;
    export_const "PROCESSING" PROCESSING;
    export_const "EARLY_HINTS" EARLY_HINTS;
    export_const "OK" OK;
    export_const "CREATED" CREATED;
    export_const "ACCEPTED" ACCEPTED;
    export_const "NON_AUTHORITATIVE_INFORMATION" NON_AUTHORITATIVE_INFORMATION;
    export_const "NO_CONTENT" NO_CONTENT;
    export_const "RESET_CONTENT" RESET_CONTENT;
    export_const "PARTIAL_CONTENT" PARTIAL_CONTENT;
    export_const "MULTI_STATUS" MULTI_STATUS;
    export_const "ALREADY_REPORTED" ALREADY_REPORTED;
    export_const "IM_USED" IM_USED;
    export_const "MULTIPLE_CHOICES" MULTIPLE_CHOICES;
    export_const "MOVED_PERMANENTLY" MOVED_PERMANENTLY;
    export_const "FOUND" FOUND;
    export_const "SEE_OTHER" SEE_OTHER;
    export_const "NOT_MODIFIED" NOT_MODIFIED;
    export_const "USE_PROXY" USE_PROXY;
    export_const "UNUSED" UNUSED;
    export_const "TEMPORARY_REDIRECT" TEMPORARY_REDIRECT;
    export_const "PERMANENT_REDIRECT" PERMANENT_REDIRECT;
    export_const "BAD_REQUEST" BAD_REQUEST;
    export_const "UNAUTHORIZED" UNAUTHORIZED;
    export_const "PAYMENT_REQUIRED" PAYMENT_REQUIRED;
    export_const "FORBIDDEN" FORBIDDEN;
    export_const "NOT_FOUND" NOT_FOUND;
    export_const "METHOD_NOT_ALLOWED" METHOD_NOT_ALLOWED;
    export_const "NOT_ACCEPTABLE" NOT_ACCEPTABLE;
    export_const "PROXY_AUTHENTICATION_REQUIRED" PROXY_AUTHENTICATION_REQUIRED;
    export_const "REQUEST_TIMEOUT" REQUEST_TIMEOUT;
    export_const "CONFLICT" CONFLICT;
    export_const "GONE" GONE;
    export_const "LENGTH_REQUIRED" LENGTH_REQUIRED;
    export_const "PRECONDITION_FAILED" PRECONDITION_FAILED;
    export_const "CONTENT_TOO_LARGE" CONTENT_TOO_LARGE;
    export_const "URI_TOO_LONG" URI_TOO_LONG;
    export_const "UNSUPPORTED_MEDIA_TYPE" UNSUPPORTED_MEDIA_TYPE;
    export_const "RANGE_NOT_SATISFIABLE" RANGE_NOT_SATISFIABLE;
    export_const "EXPECTATION_FAILED" EXPECTATION_FAILED;
    export_const "IM_A_TEAPOT" IM_A_TEAPOT;
    export_const "MISDIRECTED_REQUEST" MISDIRECTED_REQUEST;
    export_const "UNPROCESSABLE_CONTENT" UNPROCESSABLE_CONTENT;
    export_const "LOCKED" LOCKED;
    export_const "FAILED_DEPENDENCY" FAILED_DEPENDENCY;
    export_const "TOO_EARLY" TOO_EARLY;
    export_const "UPGRADE_REQUIRED" UPGRADE_REQUIRED;
    export_const "PRECONDITION_REQUIRED" PRECONDITION_REQUIRED;
    export_const "TOO_MANY_REQUESTS" TOO_MANY_REQUESTS;
    export_const "REQUEST_HEADER_FIELDS_TOO_LARGE" REQUEST_HEADER_FIELDS_TOO_LARGE;
    export_const "UNAVAILABLE_FOR_LEGAL_REASONS" UNAVAILABLE_FOR_LEGAL_REASONS;
    export_const "INTERNAL_SERVER_ERROR" INTERNAL_SERVER_ERROR;
    export_const "NOT_IMPLEMENTED" NOT_IMPLEMENTED;
    export_const "BAD_GATEWAY" BAD_GATEWAY;
    export_const "SERVICE_UNAVAILABLE" SERVICE_UNAVAILABLE;
    export_const "GATEWAY_TIMEOUT" GATEWAY_TIMEOUT;
    export_const "HTTP_VERSION_NOT_SUPPORTED" HTTP_VERSION_NOT_SUPPORTED;
    export_const "VARIANT_ALSO_NEGOTIATES" VARIANT_ALSO_NEGOTIATES;
    export_const "INSUFFICIENT_STORAGE" INSUFFICIENT_STORAGE;
    export_const "LOOP_DETECTED" LOOP_DETECTED;
    export_const "NOT_EXTENDED" NOT_EXTENDED;
    export_const "NETWORK_AUTHENTICATION_REQUIRED" NETWORK_AUTHENTICATION_REQUIRED ].

(** [import { n } from "./http-status"] for a value: the binding of the
    first exported [const] named [n], if there is one. *)
Fixpoint import_from (ds : list declaration) (n : string) : option binding :=
  match ds with
  | [] => None
  | d :: rest =>
      if exported d && String.eqb (name d) n then Some (bound d)
      else import_from rest n
  end.

Definition import (n : string) : option binding := import_from http_status_ts n.

(** The exported constants with their names: the catalogue. *)
Definition constants_of (ds : list declaration)
  : list (string * object Z string) :=
  flat_map
    (fun d =>
       match bound d with
       | Constant o => if exported d then [(name d, o)] else []
       | Function_ _ => []
       end)
    ds.

Definition catalogue : list (string * object Z string) :=
  constants_of http_status_ts.

(** The status codes the catalogue carries, in source order. *)
Definition catalogue_codes : list Z :=
  flat_map
    (fun e => match status (snd e) with Some c => [c] | None => [] end)
    catalogue.

(** ** The enumeration of the specification *)

(** The integers from [lo] to [hi], both included. *)
Definition range (lo hi : Z) : list Z :=
  map (fun i => lo + Z.of_nat i) (seq 0 (Z.to_nat (hi + 1 - lo))).

(** The codes as the specification lists them, class by class: 100 to 103;
    200 to 208 and 226; 300 to 308; 400 to 417, 421 to 426, 428, 429, 431
    and 451; 500 to 511 without 509. *)
Definition spec_enumerated_codes : list Z :=
  [100; 101; 102; 103]
  ++ (range 200 208 ++ [226])
  ++ range 300 308
  ++ (range 400 417 ++ range 421 426 ++ [428; 429; 431; 451])
  ++ filter (fun c => negb (c =? 509)) (range 500 511).

(** Every member of an object type is [readonly]. *)
Definition all_readonly (ty : object_type) : bool := forallb member_readonly ty.

(** ** Code that imports the constants *)

(** The one type the module exports beside its constants,
    [export type HTTPStatus], under its name. *)
Definition type_exports : list (string * object_type) :=
  [ ("HTTPStatus", HTTPStatus) ].

Fixpoint import_type_from (ts : list (string * object_type)) (n : string)
  : option object_type :=
  match ts with
  | [] => None
  | (m, ty) :: rest => if String.eqb m n then Some ty else import_type_from rest n
  end.

(** [import { type n } from "./http-status"]. *)
Definition import_type (n : string) : option object_type :=
  import_type_from type_exports n.

(** [{ status: number; statusText: string }]: the members of [HTTPStatus]
    without their [readonly] modifiers. *)
Definition writable_view : object_type :=
  [ Member "status" false TNumber; Member "statusText" false TString ].

Definition ts_type_eqb (a b : ts_type) : bool :=
  match a, b with
  | TNumber, TNumber => true
  | TString, TString => true
  | _, _ => false
  end.

(** A value of type [src] may initialise a name of type [tgt]: every member
    [tgt] asks for is a member of [src] of that type.  The checker compares
    no [readonly] modifier here. *)
Definition assignable (src tgt : object_type) : bool :=
  forallb
    (fun m =>
       match lookup_member src (member_name m) with
       | Some m' => ts_type_eqb (member_type m') (member_type m)
       | None => false
       end)
    tgt.

(** Objects have identity: a name refers to a location of the heap, and two
    names may refer to the same one. *)
Definition heap : Type := list (object Z string).
Definition type_env : Type := list (string * object_type).
Definition ref_env : Type := list (string * nat).

Fixpoint lookup {A : Type} (e : list (string * A)) (n : string) : option A :=
  match e with
  | [] => None
  | (m, a) :: rest => if String.eqb m n then Some a else lookup rest n
  end.

Fixpoint update (h : heap) (l : nat) (o : object Z string) : heap :=
  match h, l with
  | [], _ => []
  | _ :: rest, O => o :: rest
  | x :: rest, S l' => x :: update rest l' o
  end.

(** What a client sees after the module has been evaluated: the static type
    of each exported name, the location it refers to, and the heap. *)
Record state : Type := State {
  types : type_env;
  refs : ref_env;
  store : heap
}.

(** Evaluating one declaration.  A constant is the result of a call of the
    constructor, a fresh object literal: it goes to a new location, and an
    exported one becomes visible under its name with the constructor's
    return type.  Nothing already in the heap is written. *)
Definition declare (s : state) (d : declaration) : state :=
  match bound d with
  | Constant o =>
      if exported d
      then State (types s ++ [(name d, NewHTTPStatus_result)])%list
                 (refs s ++ [(name d, length (store s))])%list
                 (store s ++ [o])%list
      else State (types s) (refs s) (store s ++ [o])%list
  | Function_ _ => s
  end.

Definition module_state : state :=
  Eval vm_compute in fold_left declare http_status_ts (State [] [] []).

(** The expression [c.k], evaluated. *)
Definition read (re : ref_env) (h : heap) (c k : string)
  : option (value Z string) :=
  match lookup re c with
  | Some l =>
      match nth_error h l with
      | Some o => get o k
      | None => None
      end
  | None => None
  end.

(** Client statements: the assignment [c.k = v;] and the declaration
    [const m: ty = c;], which opens the block the rest of the program runs
    in (the new name hides an older one of the same spelling). *)
Inductive statement : Type :=
| Assign (c k : string) (v : value Z string)
| Alias (m : string) (ty : object_type) (c : string).

Definition check_assign (ty : object_type) (k : string) (v : value Z string)
  : list diagnostic :=
  match lookup_member ty k with
  | None => [TS2339]
  | Some m =>
      if member_readonly m then [TS2540]
      else if has_type v (member_type m) then []
      else [TS2322]
  end.

(** The diagnostics of the type checker for a program. *)
Fixpoint check (te : type_env) (prog : list statement) : list diagnostic :=
  match prog with
  | [] => []
  | Assign c k v :: rest =>
      (match lookup te c with
       | Some ty => check_assign ty k v
       | None => [TS2304]
       end ++ check te rest)%list
  | Alias m ty c :: rest =>
      (match lookup te c with
       | Some tyc => if assignable tyc ty then [] else [TS2322]
       | None => [TS2304]
       end ++ check ((m, ty) :: te) rest)%list
  end.

(** Whether the assignment [o.k = v] goes through at run time: in a module
    (strict code) a write to a non-writable property throws. *)
Fixpoint can_put (o : object Z string) (k : string) : bool :=
  match o with
  | [] => true
  | p :: rest => if String.eqb (key p) k then writable p else can_put rest k
  end.

(** The program as it runs: the emitted code has no types, and the compiler
    emits it whether or not it reported diagnostics.  A statement that
    throws (an unknown name, a non-writable property) ends the run. *)
Fixpoint run (re : ref_env) (h : heap) (prog : list statement) : heap :=
  match prog with
  | [] => h
  | Assign c k v :: rest =>
      match lookup re c with
      | Some l =>
          match nth_error h l with
          | Some o =>
              if can_put o k then run re (update h l (put o k v)) rest else h
          | None => h
          end
      | None => h
      end
  | Alias m _ c :: rest =>
      match lookup re c with
      | Some l => run ((m, l) :: re) h rest
      | None => h
      end
  end.



(** ** Decision procedures used by the proofs *)

Definition same_status (a b : object Z string) : bool :=
  match status a, status b with
  | Some c, Some d => c =? d
  | None, None => true
  | _, _ => false
  end.

(** No two differently named entries carry the same code. *)
Definition codes_pairwise_distinct (l : list (string * object Z string)) : bool :=
  forallb
    (fun a =>
       forallb
         (fun b => String.eqb (fst a) (fst b) || negb (same_status (snd a) (snd b)))
         l)
    l.

(** The code is between 100 and 599 and the phrase is not the empty string. *)
Definition in_range_nonempty (o : object Z string) : bool :=
  match status o, statusText o with
  | Some c, Some p => (100 <=? c) && (c <=? 599) && negb (String.eqb p "")
  | _, _ => false
  end.

Definition same_phrase (a b : object Z string) : bool :=
  match statusText a, statusText b with
  | Some p, Some q => String.eqb p q
  | None, None => true
  | _, _ => false
  end.

(** No two differently named entries carry the same phrase. *)
Definition phrases_pairwise_distinct (l : list (string * object Z string)) : bool :=
  forallb
    (fun a =>
       forallb
         (fun b => String.eqb (fst a) (fst b) || negb (same_phrase (snd a) (snd b)))
         l)
    l.

(** ** The naming of the constants *)

(** An ASCII letter in upper case; any other character as it is. *)
Definition upper (a : ascii) : ascii :=
  let n := nat_of_ascii a in
  if ((97 <=? n) && (n <=? 122))%nat then ascii_of_nat (n - 32) else a.

(** The name the source gives the constant of a phrase: letters in upper
    case, a space or a hyphen as an underscore, an apostrophe dropped
    ("Non-Authoritative Information" is NON_AUTHORITATIVE_INFORMATION,
    "I'm a teapot" is IM_A_TEAPOT). *)
Fixpoint constant_name (phrase : string) : string :=
  match phrase with
  | EmptyString => EmptyString
  | String a rest =>
      if Ascii.eqb a "'"%char then constant_name rest
      else if Ascii.eqb a " "%char || Ascii.eqb a "-"%char
           then String "_"%char (constant_name rest)
           else String (upper a) (constant_name rest)
  end.

Definition named_after_phrase (e : string * object Z string) : bool :=
  match statusText (snd e) with
  | Some p => String.eqb (fst e) (constant_name p)
  | None => false
  end.

(** Membership in a list that is written out. *)
Ltac in_listed :=
  unfold catalogue, constants_of, http_status_ts; simpl;
  repeat (first [left; reflexivity | right]).

(** * Properties *)

(** ** Objects *)

Section ObjectLemmas.
Context {Code Text : Type}.

Lemma get_define (o : object Code Text) (k k' : string) (v : value Code Text) :
  get (define o k v) k' = if String.eqb k k' then Some v else get o k'.
Proof.
  induction o as [|p rest IH]; simpl.
  - destruct (String.eqb k k'); reflexivity.
  - destruct (String.eqb (key p) k) eqn:Hpk; simpl.
    + apply String.eqb_eq in Hpk. subst k.
      destruct (String.eqb (key p) k'); reflexivity.
    + destruct (String.eqb (key p) k') eqn:Hpk'.
      * apply String.eqb_eq in Hpk'. subst k'.
        rewrite String.eqb_sym, Hpk. reflexivity.
      * exact IH.
Qed.

Lemma In_own_keys_define (o : object Code Text) (k k' : string) (v : value Code Text) :
  In k' (own_keys (define o k v)) <-> In k' (own_keys o) \/ k' = k.
Proof.
  induction o as [|p rest IH]; simpl.
  - intuition congruence.
  - destruct (String.eqb (key p) k) eqn:Hpk; simpl.
    + apply String.eqb_eq in Hpk. intuition congruence.
    + rewrite IH. tauto.
Qed.

(** Spreading a record into a target sets the two fields and leaves every
    other key of the target as it was. *)
Lemma get_spread_record (t : object Code Text) (c : Code) (p : Text) (k : string) :
  get (spread t (NewHTTPStatus c p)) k =
  if String.eqb "statusText" k then Some (VStr p)
  else if String.eqb "status" k then Some (VNum c)
  else get t k.
Proof.
  unfold spread, NewHTTPStatus. simpl. now rewrite !get_define.
Qed.

End ObjectLemmas.

(** ** The constructor *)

(** C1: for every numeric code [c] and every string [p], the constructor
    returns a record whose [status] is [c] and whose [statusText] is [p]; it
    is a total function of its two arguments alone, so it validates nothing,
    rejects nothing and depends on no catalogue (999 / "Custom" included). *)
Theorem NewHTTPStatus_fields :
  forall (Code Text : Type) (c : Code) (p : Text),
    get (NewHTTPStatus c p) "status" = Some (VNum c) /\
    get (NewHTTPStatus c p) "statusText" = Some (VStr p) /\
    status (NewHTTPStatus c p) = Some c /\
    statusText (NewHTTPStatus c p) = Some p.
Proof.
  intros Code Text c p. unfold status, statusText, NewHTTPStatus.
  rewrite !get_define. simpl. repeat split.
Qed.

Example NewHTTPStatus_custom :
  status (NewHTTPStatus 999 "Custom") = Some 999 /\
  statusText (NewHTTPStatus 999 "Custom") = Some "Custom" /\
  ~ In 999 catalogue_codes.
Proof.
  repeat split. vm_compute. intuition discriminate.
Qed.

(** ** Golden values *)

(** C2: the constants named for "OK", "Not Found", "I'm a teapot",
    "Non-Authoritative Information" and "Permanent Redirect" carry 200 "OK",
    404 "Not Found", 418 "I'm a teapot" (with its apostrophe),
    203 "Non-Authoritative Information" (with its hyphen) and
    308 "Permanent Redirect". *)
Theorem golden_values :
  (import "OK" = Some (Constant OK) /\
   status OK = Some 200 /\ statusText OK = Some "OK") /\
  (import "NOT_FOUND" = Some (Constant NOT_FOUND) /\
   status NOT_FOUND = Some 404 /\ statusText NOT_FOUND = Some "Not Found") /\
  (import "IM_A_TEAPOT" = Some (Constant IM_A_TEAPOT) /\
   status IM_A_TEAPOT = Some 418 /\
   statusText IM_A_TEAPOT = Some "I'm a teapot") /\
  (import "NON_AUTHORITATIVE_INFORMATION"
     = Some (Constant NON_AUTHORITATIVE_INFORMATION) /\
   status NON_AUTHORITATIVE_INFORMATION = Some 203 /\
   statusText NON_AUTHORITATIVE_INFORMATION
     = Some "Non-Authoritative Information") /\
  (import "PERMANENT_REDIRECT" = Some (Constant PERMANENT_REDIRECT) /\
   status PERMANENT_REDIRECT = Some 308 /\
   statusText PERMANENT_REDIRECT = Some "Permanent Redirect").
Proof.
  repeat split.
Qed.

(** C10: the module exports a constant named UNUSED, with status 306 and the
    capitalised phrase "Unused". *)
Theorem UNUSED_is_306_Unused :
  import "UNUSED" = Some (Constant UNUSED) /\
  In ("UNUSED", UNUSED) catalogue /\
  status UNUSED = Some 306 /\
  statusText UNUSED = Some "Unused".
Proof.
  repeat split. in_listed.
Qed.

(** ** Facts about every constant *)

Lemma catalogue_built :
  forall n o, In (n, o) catalogue -> exists c p, o = NewHTTPStatus c p.
Proof.
  assert (H : Forall (fun e => exists c p, snd e = NewHTTPStatus c p) catalogue).
  { unfold catalogue, constants_of, http_status_ts. simpl.
    repeat (constructor; [eexists; eexists; reflexivity|]). constructor. }
  intros n o Hin. rewrite Forall_forall in H. exact (H (n, o) Hin).
Qed.

Lemma same_status_complete (a b : object Z string) :
  status a = status b -> same_status a b = true.
Proof.
  unfold same_status. intros ->. destruct (status b); [apply Z.eqb_refl | reflexivity].
Qed.

(** C3: two exported constants with different names never carry the same
    status code. *)
Theorem codes_unique :
  forall nA A nB B,
    In (nA, A) catalogue -> In (nB, B) catalogue -> nA <> nB ->
    status A <> status B.
Proof.
  intros nA A nB B HA HB Hname Hsame.
  assert (Hall : codes_pairwise_distinct catalogue = true) by (vm_compute; reflexivity).
  unfold codes_pairwise_distinct in Hall.
  rewrite forallb_forall in Hall. specialize (Hall _ HA).
  rewrite forallb_forall in Hall. specialize (Hall _ HB). simpl in Hall.
  apply String.eqb_neq in Hname. rewrite Hname in Hall.
  rewrite (same_status_complete _ _ Hsame) in Hall. discriminate.
Qed.

Lemma codes_unique_witness : status OK <> status NOT_FOUND.
Proof.
  apply (codes_unique "OK" OK "NOT_FOUND" NOT_FOUND).
  - in_listed.
  - in_listed.
  - discriminate.
Defined.

(** C9: every exported constant has a code between 100 and 599, both
    included, and a phrase that is not the empty string. *)
Theorem codes_in_range_phrases_nonempty :
  forall n o,
    In (n, o) catalogue ->
    exists (c : Z) (p : string),
      status o = Some c /\ statusText o = Some p /\
      100 <= c <= 599 /\ p <> "" /\ (0 < String.length p)%nat.
Proof.
  intros n o Hin.
  assert (Hall : forallb (fun e => in_range_nonempty (snd e)) catalogue = true)
    by (vm_compute; reflexivity).
  rewrite forallb_forall in Hall. specialize (Hall _ Hin). simpl in Hall.
  unfold in_range_nonempty in Hall.
  destruct (status o) as [c|]; [|discriminate].
  destruct (statusText o) as [p|]; [|discriminate].
  exists c, p.
  apply andb_prop in Hall as [Hcode Hp]. apply andb_prop in Hcode as [Hlo Hhi].
  apply Z.leb_le in Hlo. apply Z.leb_le in Hhi.
  apply negb_true_iff, String.eqb_neq in Hp.
  repeat split; try assumption.
  destruct p; [congruence | simpl; lia].
Qed.

Lemma codes_in_range_phrases_nonempty_witness :
  exists (c : Z) (p : string),
    status IM_A_TEAPOT = Some c /\ statusText IM_A_TEAPOT = Some p /\
    100 <= c <= 599 /\ p <> "" /\ (0 < String.length p)%nat.
Proof.
  apply (codes_in_range_phrases_nonempty "IM_A_TEAPOT" IM_A_TEAPOT). in_listed.
Defined.

(** ** The set of codes *)

Lemma catalogue_codes_spec (c : Z) :
  (exists n o, In (n, o) catalogue /\ status o = Some c) <-> In c catalogue_codes.
Proof.
  unfold catalogue_codes. rewrite in_flat_map. split.
  - intros (n & o & Hin & Hst). exists (n, o). simpl. rewrite Hst. simpl. tauto.
  - intros ([n o] & Hin & Hc). simpl in Hc. exists n, o. split; [exact Hin|].
    destruct (status o) as [d|]; simpl in Hc; [|contradiction].
    destruct Hc as [->|[]]. reflexivity.
Qed.

(** The catalogue's codes are the enumerated ones with 418 between 417 and
    421. *)
Lemma catalogue_codes_listing :
  catalogue_codes =
  (firstn 41 spec_enumerated_codes ++ 418 :: skipn 41 spec_enumerated_codes)%list.
Proof. vm_compute. reflexivity. Qed.

(** C4, as the claim states it, fails at 418: a constant carries it and the
    enumeration does not list it. *)
Lemma code_418_not_enumerated :
  ~ ((exists n o, In (n, o) catalogue /\ status o = Some 418)
     <-> In 418 spec_enumerated_codes).
Proof.
  intros [Hto _].
  assert (Hin : In 418 spec_enumerated_codes).
  { apply Hto. exists "IM_A_TEAPOT", IM_A_TEAPOT. split; [in_listed | reflexivity]. }
  vm_compute in Hin. intuition discriminate.
Qed.

(** C4, amended: the codes carried by the exported constants are exactly the
    enumerated ones (100 to 103; 200 to 208 and 226; 300 to 308; 400 to 417,
    421 to 426, 428, 429, 431, 451; 500 to 511 without 509) together
    with 418. *)
Theorem catalogue_codes_exactly :
  forall c : Z,
    (exists n o, In (n, o) catalogue /\ status o = Some c)
    <-> (In c spec_enumerated_codes \/ c = 418).
Proof.
  intro c. rewrite catalogue_codes_spec, catalogue_codes_listing.
  rewrite <- (firstn_skipn 41 spec_enumerated_codes) at 3.
  rewrite !in_app_iff. simpl. intuition congruence.
Qed.

(** ** Shape *)

(** C5: every exported constant has exactly the two own fields [status], an
    integer, and [statusText], a string, as [HTTPStatus] declares them;
    spreading it gives an object with exactly those two fields and values,
    and spreading it over other fields adds those two and nothing else. *)
Theorem constant_shape_and_spread :
  forall n o,
    In (n, o) catalogue ->
    own_keys o = ["status"; "statusText"] /\
    (exists (c : Z) (p : string),
        get o "status" = Some (VNum c) /\ get o "statusText" = Some (VStr p)) /\
    conforms o HTTPStatus = true /\
    spread [] o = o /\
    (forall t k,
        In k (own_keys (spread t o))
        <-> (In k (own_keys t) \/ k = "status" \/ k = "statusText")) /\
    (forall t, get (spread t o) "status" = get o "status") /\
    (forall t, get (spread t o) "statusText" = get o "statusText") /\
    (forall t k, k <> "status" -> k <> "statusText" ->
                 get (spread t o) k = get t k).
Proof.
  intros n o Hin. destruct (catalogue_built n o Hin) as (c & p & ->).
  split; [reflexivity|]. split; [exists c, p; split; reflexivity|].
  split; [reflexivity|]. split; [reflexivity|]. split; [|split; [|split]].
  - intros t k. unfold spread, NewHTTPStatus. simpl.
    rewrite !In_own_keys_define. tauto.
  - intro t. rewrite get_spread_record. reflexivity.
  - intro t. rewrite get_spread_record. reflexivity.
  - intros t k Hs Ht. rewrite get_spread_record.
    apply not_eq_sym, String.eqb_neq in Hs. apply not_eq_sym, String.eqb_neq in Ht.
    now rewrite Hs, Ht.
Qed.

Lemma constant_shape_and_spread_witness :
  own_keys CREATED = ["status"; "statusText"] /\
  spread [] CREATED = CREATED /\
  get (spread [data_property "headers" (VStr "h")] CREATED) "headers"
    = Some (VStr "h").
Proof.
  destruct (constant_shape_and_spread "CREATED" CREATED) as
      (Hkeys & _ & _ & Hsp & _ & _ & _ & Hother).
  - in_listed.
  - split; [exact Hkeys|]. split; [exact Hsp|].
    rewrite Hother; [reflexivity | discriminate | discriminate].
Defined.

Lemma lookup_member_In (ty : object_type) (k : string) (m : member) :
  lookup_member ty k = Some m -> In m ty /\ member_name m = k.
Proof.
  induction ty as [|m' rest IH]; simpl; [discriminate|].
  destruct (String.eqb (member_name m') k) eqn:Hk.
  - intros [= ->]. apply String.eqb_eq in Hk. tauto.
  - intro H. destruct (IH H). tauto.
Qed.

(** Under a type whose members are all [readonly], no assignment compiles. *)
Lemma assign_all_readonly (ty : object_type) (o : object Z string) (k : string)
  (v : value Z string) :
  all_readonly ty = true ->
  assign ty o k v = Rejected TS2540 \/ assign ty o k v = Rejected TS2339.
Proof.
  intro Hro. unfold assign. destruct (lookup_member ty k) as [m|] eqn:Hm.
  - apply lookup_member_In in Hm as [Hin _].
    unfold all_readonly in Hro. rewrite forallb_forall in Hro.
    rewrite (Hro m Hin). now left.
  - now right.
Qed.

(** ** Names, locations and the heap *)










(** C6, as the claim states it, fails twice on the record built from 999
    and "Custom": it has no field named [code] and none named [phrase]; and
    it is not immutable, since the program
    [const m: { status: number; statusText: string } = r; m.status = 500;]
    has no diagnostic and [r.status] reads 500 after it. *)
Lemma not_code_phrase_nor_immutable :
  ~ (get (NewHTTPStatus 999 "Custom") "code" = Some (VNum 999) /\
     get (NewHTTPStatus 999 "Custom") "phrase" = Some (VStr "Custom")) /\
  check [("r", NewHTTPStatus_result)]
        [Alias "m" writable_view "r"; Assign "m" "status" (VNum 500)] = [] /\
  read [("r", 0%nat)] [NewHTTPStatus 999 "Custom"] "r" "status"
    = Some (VNum 999) /\
  read [("r", 0%nat)]
       (run [("r", 0%nat)] [NewHTTPStatus 999 "Custom"]
            [Alias "m" writable_view "r"; Assign "m" "status" (VNum 500)])
       "r" "status" = Some (VNum 500).
Proof.
  split; [intros [Hcode _]; discriminate Hcode|]. repeat split.
Qed.

(** C6, amended: the record returned by the constructor has exactly two
    fields, named [status] and [statusText], exposing the two arguments, and
    none named [code] or [phrase].  Both are [readonly] in the declared
    return type, under which no assignment to the record compiles; the
    record is not frozen, and a write through a reference declared without
    [readonly] has no diagnostic and changes the value the record reads. *)
Theorem NewHTTPStatus_record :
  (forall (Code Text : Type) (c : Code) (p : Text),
      own_keys (NewHTTPStatus c p) = ["status"; "statusText"] /\
      get (NewHTTPStatus c p) "status" = Some (VNum c) /\
      get (NewHTTPStatus c p) "statusText" = Some (VStr p) /\
      get (NewHTTPStatus c p) "code" = None /\
      get (NewHTTPStatus c p) "phrase" = None) /\
  map member_name NewHTTPStatus_result = ["status"; "statusText"] /\
  all_readonly NewHTTPStatus_result = true /\
  (forall (c : Z) (p k : string) (v : value Z string),
      assign NewHTTPStatus_result (NewHTTPStatus c p) k v = Rejected TS2540 \/
      assign NewHTTPStatus_result (NewHTTPStatus c p) k v = Rejected TS2339) /\
  (forall (k : string) (v : value Z string),
      check [("r", NewHTTPStatus_result)] [Assign "r" k v] = [TS2540] \/
      check [("r", NewHTTPStatus_result)] [Assign "r" k v] = [TS2339]) /\
  (forall (c n : Z) (p : string),
      check [("r", NewHTTPStatus_result)]
            [Alias "m" writable_view "r"; Assign "m" "status" (VNum n)] = [] /\
      read [("r", 0%nat)]
           (run [("r", 0%nat)] [NewHTTPStatus c p]
                [Alias "m" writable_view "r"; Assign "m" "status" (VNum n)])
           "r" "status" = Some (VNum n) /\
      read [("r", 0%nat)]
           (run [("r", 0%nat)] [NewHTTPStatus c p]
                [Alias "m" writable_view "r"; Assign "m" "status" (VNum n)])
           "r" "statusText" = Some (VStr p)).
Proof.
  split; [intros; repeat split|]. split; [reflexivity|]. split; [reflexivity|].
  split; [intros c p k v; apply assign_all_readonly; reflexivity|].
  split.
  - intros k v. cbn [check lookup]. rewrite String.eqb_refl, app_nil_r.
    unfold check_assign.
    destruct (lookup_member NewHTTPStatus_result k) as [m|] eqn:Hm; [|now right].
    apply lookup_member_In in Hm as [Hin _].
    assert (Hro : all_readonly NewHTTPStatus_result = true) by reflexivity.
    unfold all_readonly in Hro. rewrite forallb_forall in Hro.
    rewrite (Hro m Hin). now left.
  - intros c n p. repeat split.
Qed.

(** ** The export surface *)

(** C7, as the claim states it, fails: the constructor is declared without
    [export], so importing it by name finds nothing. *)
Lemma NewHTTPStatus_not_importable :
  ~ (exists f, import "NewHTTPStatus" = Some (Function_ f)).
Proof.
  intros [f Hf]. vm_compute in Hf. discriminate Hf.
Qed.

(** C7, amended: every constant of the module is exported and importable by
    its own name; the only function, the record constructor, is declared
    without [export] and cannot be imported: the declarations of the
    catalogue are its callers. *)
Theorem constants_exported_constructor_local :
  forall d,
    In d http_status_ts ->
    match bound d with
    | Constant o =>
        exported d = true /\ import (name d) = Some (Constant o) /\
        exists c p, o = NewHTTPStatus c p
    | Function_ f =>
        exported d = false /\ name d = "NewHTTPStatus" /\
        f = NewHTTPStatus /\ import (name d) = None
    end.
Proof.
  apply Forall_forall. unfold http_status_ts.
  constructor; [repeat split|].
  repeat (constructor;
          [split; [reflexivity|]; split; [reflexivity|];
           eexists; eexists; reflexivity|]).
  constructor.
Qed.

Lemma constants_exported_constructor_local_witness :
  (exported (export_const "CREATED" CREATED) = true /\
   import "CREATED" = Some (Constant CREATED) /\
   exists c p, CREATED = NewHTTPStatus c p) /\
  import "NewHTTPStatus" = None.
Proof.
  split.
  - apply (constants_exported_constructor_local (export_const "CREATED" CREATED)).
    in_listed.
  - apply (constants_exported_constructor_local
             (Declaration false "NewHTTPStatus" (Function_ NewHTTPStatus))).
    left. reflexivity.
Defined.

(** ** Immutability *)






(** The protection is the static one.  The object literal creates writable
    properties and the module freezes nothing, so the run-time assignment,
    when no checker stands before it, stores the new value; and a name
    declared with a type that drops [readonly] takes the write. *)
Remark properties_are_writable :
  forallb writable OK = true /\
  status (put OK "status" (VNum 500)) = Some 500 /\
  assign [Member "status" false TNumber] OK "status" (VNum 500)
    = Compiles (put OK "status" (VNum 500)).
Proof.
  repeat split.
Qed.

(** * Further properties of the module *)

(** ** Importing by name *)

Lemma import_from_sound (ds : list declaration) (n : string) (b : binding) :
  import_from ds n = Some b ->
  exists d, In d ds /\ exported d = true /\ name d = n /\ bound d = b.
Proof.
  induction ds as [|d rest IH]; simpl; [discriminate|].
  destruct (exported d && String.eqb (name d) n) eqn:Hd.
  - intros [= <-]. apply andb_prop in Hd as [He Hn].
    apply String.eqb_eq in Hn. exists d. tauto.
  - intro H. destruct (IH H) as (d' & Hin & Hrest). exists d'. tauto.
Qed.

Lemma constants_of_In (ds : list declaration) (d : declaration)
  (o : object Z string) :
  In d ds -> exported d = true -> bound d = Constant o ->
  In (name d, o) (constants_of ds).
Proof.
  intros Hin He Hb. unfold constants_of. apply in_flat_map.
  exists d. split; [exact Hin|]. rewrite Hb, He. now left.
Qed.

Lemma exports_are_constants :
  forall d, In d http_status_ts -> exported d = true ->
            exists o, bound d = Constant o.
Proof.
  apply (proj1 (Forall_forall
                  (fun d => exported d = true -> exists o, bound d = Constant o)
                  http_status_ts)).
  unfold http_status_ts.
  constructor; [discriminate|].
  repeat (constructor; [intros _; eexists; reflexivity|]). constructor.
Qed.

Lemma import_catalogue_entry :
  forall n o, In (n, o) catalogue -> import n = Some (Constant o).
Proof.
  assert (H : Forall (fun e => import (fst e) = Some (Constant (snd e))) catalogue).
  { unfold catalogue, constants_of, http_status_ts. simpl.
    repeat (constructor; [reflexivity|]). constructor. }
  intros n o Hin. rewrite Forall_forall in H. exact (H (n, o) Hin).
Qed.

(** X1: importing a name gives a constant exactly when the catalogue has it
    under that name (the exported names are pairwise different, so a name
    never hides another declaration); a name resolves to nothing, neither a
    value nor a type, exactly when no constant has it and it is not
    [HTTPStatus], the one type the module exports. *)
Theorem import_iff_catalogue :
  (forall n o, import n = Some (Constant o) <-> In (n, o) catalogue) /\
  (forall n, (import n = None /\ import_type n = None)
             <-> (~ In n (map fst catalogue) /\ n <> "HTTPStatus")) /\
  import_type "HTTPStatus" = Some HTTPStatus.
Proof.
  assert (Hsome : forall n o, import n = Some (Constant o) -> In (n, o) catalogue).
  { intros n o H. apply import_from_sound in H as (d & Hin & He & <- & Hb).
    now apply constants_of_In. }
  assert (Hnone : forall n, import n = None <-> ~ In n (map fst catalogue)).
  { intro n. split.
    - intros Hnone Hin. apply in_map_iff in Hin as ([m o] & Hm & Hin).
      simpl in Hm. subst m. rewrite (import_catalogue_entry n o Hin) in Hnone.
      discriminate.
    - intro Hnot. destruct (import n) as [b|] eqn:Hb; [|reflexivity].
      exfalso. apply Hnot.
      pose proof Hb as Hd. apply import_from_sound in Hd as (d & Hin & He & _ & Hbd).
      destruct (exports_are_constants d Hin He) as [o Ho].
      apply in_map_iff. exists (n, o). split; [reflexivity|].
      apply Hsome. congruence. }
  assert (Htype : forall n, import_type n = None <-> n <> "HTTPStatus").
  { intro n. unfold import_type, type_exports. cbn [import_type_from].
    destruct (String.eqb "HTTPStatus" n) eqn:Hn.
    - apply String.eqb_eq in Hn. split; [discriminate | congruence].
    - apply String.eqb_neq in Hn. split; [congruence | reflexivity]. }
  split; [|split].
  - intros n o. split; [apply Hsome | apply import_catalogue_entry].
  - intro n. rewrite Hnone, Htype. tauto.
  - reflexivity.
Qed.

(** ** Phrases and names *)

Lemma same_phrase_complete (a b : object Z string) :
  statusText a = statusText b -> same_phrase a b = true.
Proof.
  unfold same_phrase. intros ->.
  destruct (statusText b); [apply String.eqb_refl | reflexivity].
Qed.

(** X2: two exported constants with different names never carry the same
    phrase. *)
Theorem phrases_unique :
  forall nA A nB B,
    In (nA, A) catalogue -> In (nB, B) catalogue -> nA <> nB ->
    statusText A <> statusText B.
Proof.
  intros nA A nB B HA HB Hname Hsame.
  assert (Hall : phrases_pairwise_distinct catalogue = true)
    by (vm_compute; reflexivity).
  unfold phrases_pairwise_distinct in Hall.
  rewrite forallb_forall in Hall. specialize (Hall _ HA).
  rewrite forallb_forall in Hall. specialize (Hall _ HB). simpl in Hall.
  apply String.eqb_neq in Hname. rewrite Hname in Hall.
  rewrite (same_phrase_complete _ _ Hsame) in Hall. discriminate.
Qed.

Lemma phrases_unique_witness : statusText FOUND <> statusText NOT_FOUND.
Proof.
  apply (phrases_unique "FOUND" FOUND "NOT_FOUND" NOT_FOUND).
  - in_listed.
  - in_listed.
  - discriminate.
Defined.

(** X3: every exported constant is named after its own phrase: the phrase
    in upper case, with an underscore for each space and each hyphen and
    with apostrophes left out. *)
Theorem names_follow_phrases :
  forall n o,
    In (n, o) catalogue ->
    exists p, statusText o = Some p /\ n = constant_name p.
Proof.
  intros n o Hin.
  assert (Hall : forallb named_after_phrase catalogue = true)
    by (vm_compute; reflexivity).
  rewrite forallb_forall in Hall. specialize (Hall _ Hin).
  unfold named_after_phrase in Hall. simpl in Hall.
  destruct (statusText o) as [p|]; [|discriminate].
  exists p. split; [reflexivity | now apply String.eqb_eq].
Qed.

Lemma names_follow_phrases_witness :
  exists p,
    statusText NON_AUTHORITATIVE_INFORMATION = Some p /\
    "NON_AUTHORITATIVE_INFORMATION" = constant_name p.
Proof.
  apply (names_follow_phrases "NON_AUTHORITATIVE_INFORMATION"
           NON_AUTHORITATIVE_INFORMATION).
  in_listed.
Defined.

(** ** Records and spreads *)

Section SpreadLemmas.
Context {Code Text : Type}.

Lemma define_define_same (o : object Code Text) (k : string)
  (v v' : value Code Text) :
  define (define o k v) k v' = define o k v'.
Proof.
  induction o as [|q rest IH]; simpl.
  - now rewrite String.eqb_refl.
  - destruct (String.eqb (key q) k) eqn:Hq; simpl.
    + now rewrite String.eqb_refl.
    + now rewrite Hq, IH.
Qed.

Lemma define_swap (o : object Code Text) (k k' : string)
  (v v' w : value Code Text) :
  k <> k' ->
  define (define (define o k v) k' w) k v' = define (define o k v') k' w.
Proof.
  intro Hk. pose proof Hk as Hkk'. apply String.eqb_neq in Hkk'.
  induction o as [|q rest IH]; simpl.
  - rewrite Hkk'. simpl. now rewrite String.eqb_refl.
  - destruct (String.eqb (key q) k) eqn:Hq; simpl.
    + rewrite Hkk'. simpl. now rewrite String.eqb_refl.
    + destruct (String.eqb (key q) k') eqn:Hq'; simpl.
      * apply String.eqb_eq in Hq'. subst k'.
        rewrite String.eqb_sym, Hkk'. now rewrite define_define_same.
      * now rewrite Hq, IH.
Qed.

Lemma spread_record (t : object Code Text) (c : Code) (p : Text) :
  spread t (NewHTTPStatus c p)
  = define (define t "status" (VNum c)) "statusText" (VStr p).
Proof. reflexivity. Qed.

End SpreadLemmas.

(** X4: a record spread after another replaces it whole, whatever else the
    target holds: [{ ...t, ...A, ...B }] is [{ ...t, ...B }], and
    [{ ...A, ...B }] is [B]. *)
Theorem later_spread_replaces_earlier :
  forall (Code Text : Type) (t : object Code Text) (c c' : Code) (p p' : Text),
    spread (spread t (NewHTTPStatus c p)) (NewHTTPStatus c' p')
    = spread t (NewHTTPStatus c' p') /\
    spread (NewHTTPStatus c p) (NewHTTPStatus c' p') = NewHTTPStatus c' p'.
Proof.
  intros Code Text t c c' p p'.
  assert (H : forall u : object Code Text,
             spread (spread u (NewHTTPStatus c p)) (NewHTTPStatus c' p')
             = spread u (NewHTTPStatus c' p')).
  { intro u. rewrite !spread_record.
    rewrite (define_swap u "status" "statusText") by discriminate.
    now rewrite define_define_same. }
  split; [apply H|]. exact (H []).
Qed.

(** X5: the place of the spread decides which value the merged object
    keeps.  A [status] written after the spread of a record replaces the
    record's code and leaves its phrase; a [status] written before it is
    replaced by the record's code. *)
Theorem spread_position_decides :
  forall (Code Text : Type) (t : object Code Text) (c : Code) (p : Text)
         (v : value Code Text),
    get (define (spread t (NewHTTPStatus c p)) "status" v) "status" = Some v /\
    get (define (spread t (NewHTTPStatus c p)) "status" v) "statusText"
      = Some (VStr p) /\
    get (spread (define t "status" v) (NewHTTPStatus c p)) "status"
      = Some (VNum c) /\
    spread (define t "status" v) (NewHTTPStatus c p)
      = spread t (NewHTTPStatus c p).
Proof.
  intros Code Text t c p v. split; [|split; [|split]].
  - now rewrite get_define.
  - now rewrite get_define, get_spread_record.
  - now rewrite get_spread_record.
  - rewrite !spread_record. now rewrite define_define_same.
Qed.

(** X6: an object that a record was spread into has the shape
    [HTTPStatus] declares, a number under [status] and a string under
    [statusText], whatever the object held before. *)
Theorem spread_conforms :
  forall (t : object Z string) (c : Z) (p : string),
    conforms (spread t (NewHTTPStatus c p)) HTTPStatus = true /\
    conforms (NewHTTPStatus c p) HTTPStatus = true.
Proof.
  intros t c p. split; [|reflexivity].
  unfold conforms, HTTPStatus, forallb, member_name, member_type.
  now rewrite !get_spread_record.
Qed.

(** X8: at run time a record is an ordinary object: each of its properties
    is writable, enumerable and configurable, nothing freezes it, and an
    assignment that no checker stops stores the new value under [status],
    keeps the phrase and adds no field. *)
Theorem record_not_frozen :
  forall (Code Text : Type) (c : Code) (p : Text) (v : value Code Text),
    forallb (fun q => writable q && enumerable q && configurable q)
            (NewHTTPStatus c p) = true /\
    get (put (NewHTTPStatus c p) "status" v) "status" = Some v /\
    get (put (NewHTTPStatus c p) "status" v) "statusText" = Some (VStr p) /\
    own_keys (put (NewHTTPStatus c p) "status" v) = ["status"; "statusText"].
Proof.
  intros Code Text c p v. repeat split.
Qed.

(** ** One object for each constant *)




(** The state the proofs use is the evaluation of the module's
    declarations. *)
Lemma module_state_evaluated :
  module_state = fold_left declare http_status_ts (State [] [] []).
Proof. vm_compute. reflexivity. Qed.
